(** * mcp-image-generator: the [generate_image] tool and the [main] entry point

    A shallow embedding of [src/mcp_image_generator/server.py].

    The handler talks to three collaborators: the logger, the calling
    context [ctx] (notifications to the client) and the image provider
    (the [genai] client).  Each interaction is recorded as an [Event];
    a computation is a pair of the events it performed, in order, and of
    its outcome: a returned value or a raised exception.

    What lies outside the file is taken as follows.  The provider is a
    record of two functions that return or raise as they please.  The
    calls to the logger and to [ctx] return.  The [fastmcp] image wrapper
    and the binding of the tool's arguments follow the libraries: the
    wrapper refuses to be built without data, the binder enforces the
    [Field] annotations of the signature.  Click's parsing of flags and
    environment variables is represented by its result, an optional value
    per source. *)

From Stdlib Require Import Strings.String Strings.Ascii Strings.Byte Lists.List ZArith Lia Bool.Bool.
From Stdlib Require Import Numbers.DecimalString Numbers.DecimalPos Numbers.DecimalZ.
From ExtLib Require Import Structures.Monad Structures.MonadExc.
Import ListNotations.
Import MonadNotation.
Local Open Scope string_scope.
Local Open Scope list_scope.
Local Open Scope monad_scope.

Set Implicit Arguments.

(** ** Python values *)

(** [bytes]. *)
Definition bytes := list byte.

(** An instance of [Exception]: its class and what [str(e)] gives, which is
    all the handler looks at ([f"...: {e}"]).  Signals that are not
    instances of [Exception] are not caught by [except Exception] and are
    not part of this type. *)
Record Exn : Type := mkExn { exn_class : string; exn_str : string }.

Definition ValueError (msg : string) : Exn := mkExn "ValueError" msg.

(** An f-string: its pieces, joined. *)
Definition fstr (pieces : list string) : string := String.concat "" pieces.

(** [str(n)] for an [int]. *)
Definition str_int (z : Z) : string := NilZero.string_of_int (Z.to_int z).

(** [str(v)] for an [Optional[int]]; [None] prints as [None]. *)
Definition str_opt_int (v : option Z) : string :=
  match v with
  | Some z => str_int z
  | None => "None"
  end.

(** [str(len(l))]. *)
Definition str_len {A} (l : list A) : string := str_int (Z.of_nat (length l)).

(** [s.lower()] on ASCII letters. *)
Definition lower_ascii (c : ascii) : ascii :=
  let n := nat_of_ascii c in
  if (65 <=? n)%nat && (n <=? 90)%nat then ascii_of_nat (n + 32) else c.

Fixpoint lower (s : string) : string :=
  match s with
  | EmptyString => EmptyString
  | String c r => String (lower_ascii c) (lower r)
  end.

(** ** [base64.b64encode(data).decode()] *)
Module Base64.

Definition alphabet : string :=
  "ABCDEFGHIJKLMNOPQRSTUVWXYZabcdefghijklmnopqrstuvwxyz0123456789+/".

Definition digit (n : N) : ascii :=
  match String.get (N.to_nat n) alphabet with
  | Some c => c
  | None => "="%char
  end.

(** The four sextets of a 24-bit group. *)
Definition sextet (i : N) (group : N) : ascii :=
  digit (N.land (N.shiftr group (6 * (3 - i))) 63).

Definition group3 (a b c : byte) : N :=
  N.lor (N.shiftl (Byte.to_N a) 16) (N.lor (N.shiftl (Byte.to_N b) 8) (Byte.to_N c)).

Fixpoint b64encode (data : bytes) : string :=
  match data with
  | [] => ""
  | [a] =>
      let g := group3 a x00 x00 in
      String (sextet 0 g) (String (sextet 1 g) "==")
  | [a; b] =>
      let g := group3 a b x00 in
      String (sextet 0 g) (String (sextet 1 g) (String (sextet 2 g) "="))
  | a :: b :: c :: rest =>
      let g := group3 a b c in
      String (sextet 0 g) (String (sextet 1 g) (String (sextet 2 g)
        (String (sextet 3 g) (b64encode rest))))
  end.

End Base64.

(** ** The collaborators' data *)

(** [genai.types.Image]: only [image_bytes] is read. *)
Record GenaiImage : Type := { image_bytes : option bytes }.

(** [genai.types.GeneratedImage]: only [image] is read. *)
Record GeneratedImage : Type := { image : option GenaiImage }.

(** [genai.types.GenerateImagesResponse]: [generated_images] is an
    [Optional[list[GeneratedImage]]]. *)
Record GenerateImagesResponse : Type :=
  { generated_images : option (list GeneratedImage) }.

(** [genai.types.GenerateImagesConfig(...)] as the handler fills it. *)
Record GenerateImagesConfig : Type :=
  { number_of_images : option Z;
    cfg_image_size : option string;
    cfg_aspect_ratio : option string;
    cfg_person_generation : option string;
    output_mime_type : string }.

(** The keyword arguments of [client.aio.models.generate_images]. *)
Record GenerateImagesCall : Type :=
  { model : string;
    call_prompt : string;
    config : GenerateImagesConfig }.

(** [fastmcp.utilities.types.Image], built from [data] and [format]
    (no [path] is ever given). *)
Record FastmcpImage : Type :=
  { data : option bytes;
    _format : option string;
    _mime_type : string }.

(** [mcp.types.ImageContent]. *)
Record ImageContent : Type :=
  { type : string;
    content_data : string;
    mimeType : string }.

(** ** Events and computations *)

Inductive Level : Type := INFO | WARNING | ERROR.

Inductive Event : Type :=
| Log (lvl : Level) (msg : string)        (* logger.info / logger.error *)
| Notify (lvl : Level) (msg : string)     (* await ctx.info / warning / error *)
| NewClient (api_key : string)            (* genai.Client(api_key=...) *)
| Request (call : GenerateImagesCall).    (* await ...generate_images(...) *)

Definition Trace := list Event.

(** What a computation did and how it ended: [inl e] is [raise e]. *)
Definition Run (A : Type) : Type := (Trace * (Exn + A))%type.

Definition Run_ret {A} (a : A) : Run A := ([], inr a).

Definition Run_bind {A B} (c : Run A) (k : A -> Run B) : Run B :=
  match c with
  | (t, inl e) => (t, inl e)
  | (t, inr a) => let (t', r) := k a in (t ++ t', r)
  end.

Definition Run_raise {A} (e : Exn) : Run A := ([], inl e).

(** [try: c  except Exception as e: h e]. *)
Definition Run_catch {A} (c : Run A) (h : Exn -> Run A) : Run A :=
  match c with
  | (t, inl e) => let (t', r) := h e in (t ++ t', r)
  | (t, inr a) => (t, inr a)
  end.

#[global] Instance Monad_Run : Monad Run :=
  {| ret := @Run_ret; bind := @Run_bind |}.

#[global] Instance MonadExc_Run : MonadExc Exn Run :=
  {| raise := @Run_raise; catch := @Run_catch |}.

Definition emit (ev : Event) : Run unit := ([ev], inr tt).

(** Taking the answer of a collaborator that either raised or returned. *)
Definition answer {A} (ev : Event) (r : Exn + A) : Run A := ([ev], r).

Definition trace_of {A} (c : Run A) : Trace := fst c.
Definition outcome {A} (c : Run A) : Exn + A := snd c.

(** ** The libraries the handler calls *)

(** The provider as the handler meets it: what [genai.Client(api_key=...)]
    does with a credential, and what the client's [generate_images] does
    with a call.  Either may raise. *)
Record Provider : Type :=
  { client : Type;
    Client : string -> Exn + client;
    generate_images : client -> GenerateImagesCall -> Exn + GenerateImagesResponse }.

(** [fastmcp.utilities.types.Image._get_mime_type], without a path. *)
Definition _get_mime_type (format : option string) : string :=
  match format with
  | Some (String c r) => fstr ["image/"; lower (String c r)]
  | _ => "image/png"
  end.

(** [fastmcp.utilities.types.Image(data=..., format=...)]: the constructor
    refuses to build an image that has neither a path nor data. *)
Definition Image (data : option bytes) (format : option string) : Run FastmcpImage :=
  match data with
  | None => raise (ValueError "Either path or data must be provided")
  | Some _ =>
      ret {| data := data; _format := format; _mime_type := _get_mime_type format |}
  end.

(** [Image.to_image_content()], without a path. *)
Definition to_image_content (img : FastmcpImage) : Run ImageContent :=
  match img.(data) with
  | Some d =>
      ret {| type := "image";
             content_data := Base64.b64encode d;
             mimeType := img.(_mime_type) |}
  | None => raise (ValueError "No image data available")
  end.

(** ** Process-wide state *)

(** The module globals [MODEL] and [GEMINI_API_KEY]. *)
Record Globals : Type := { MODEL : string; GEMINI_API_KEY : string }.

(** Their values when the module is loaded (lines 15-16). *)
Definition initial_globals : Globals :=
  {| MODEL := "imagen-4.0-generate-001"; GEMINI_API_KEY := "unknown" |}.

(** ** The tool handler *)

(** The parameters of [generate_image] once bound ([ctx] apart). *)
Record Params : Type :=
  { prompt : string;
    image_size : option string;
    num_images : option Z;
    aspect_ratio : option string;
    person_generation : option string }.

(** [not v] for an optional list: [None] and [[]] are falsy. *)
Definition falsy {A} (v : option (list A)) : bool :=
  match v with
  | None | Some [] => true
  | Some (_ :: _) => false
  end.

(** Iterating over an optional list that passed the truthiness test. *)
Definition iter {A} (v : option (list A)) : list A :=
  match v with
  | Some l => l
  | None => []
  end.

Section Handler.

Variable P : Provider.
Variable G : Globals.

(** Lines 70-74: the loop that fills [fastmcp_images]. *)
Fixpoint wrap_images (entries : list GeneratedImage)
    (fastmcp_images : list FastmcpImage) : Run (list FastmcpImage) :=
  match entries with
  | [] => ret fastmcp_images
  | generated_image :: rest =>
      match generated_image.(image) with
      | None => wrap_images rest fastmcp_images
      | Some img =>
          wrapped <- Image img.(image_bytes) (Some "png") ;;
          wrap_images rest (fastmcp_images ++ [wrapped])
      end
  end.

(** Line 76: [[image.to_image_content() for image in fastmcp_images]]. *)
Fixpoint convert_images (fastmcp_images : list FastmcpImage) : Run (list ImageContent) :=
  match fastmcp_images with
  | [] => ret []
  | img :: rest =>
      content <- to_image_content img ;;
      contents <- convert_images rest ;;
      ret (content :: contents)
  end.

(** Lines 55-63: the call the handler sends. *)
Definition request_of (a : Params) : GenerateImagesCall :=
  {| model := G.(MODEL);
     call_prompt := a.(prompt);
     config :=
       {| number_of_images := a.(num_images);
          cfg_image_size := a.(image_size);
          cfg_aspect_ratio := a.(aspect_ratio);
          cfg_person_generation := a.(person_generation);
          output_mime_type := "image/png" |} |}.

(** Lines 44-45: the body of the first [try]. *)
Definition create_client : Run P.(client) :=
  emit (Log INFO "Creating client") ;;
  answer (NewClient G.(GEMINI_API_KEY)) (P.(Client) G.(GEMINI_API_KEY)).

(** Lines 54-78: the body of the second [try]. *)
Definition request_and_convert (c : P.(client)) (a : Params) : Run (list ImageContent) :=
  response <- answer (Request (request_of a)) (P.(generate_images) c (request_of a)) ;;
  (if falsy response.(generated_images) then
     emit (Notify WARNING "No images were generated.") ;;
     raise (ValueError "No images were generated.")
   else ret tt) ;;
  fastmcp_images <- wrap_images (iter response.(generated_images)) [] ;;
  images <- convert_images fastmcp_images ;;
  emit (Notify INFO (fstr ["Successfully generated "; str_len images; " images."])) ;;
  ret images.

(** Lines 41-83. *)
Definition generate_image (a : Params) : Run (list ImageContent) :=
  emit (Log INFO (fstr ["Generating "; str_opt_int a.(num_images);
                        " images with prompt: '"; a.(prompt); "'"])) ;;
  c <- catch create_client
         (fun e =>
            emit (Notify ERROR (fstr ["Failed to create Gemini client: "; e.(exn_str)])) ;;
            emit (Log ERROR (fstr ["Failed to create Gemini client: "; e.(exn_str)])) ;;
            raise e) ;;
  emit (Log INFO "making request") ;;
  emit (Notify INFO (fstr ["Making request to generate images with prompt '";
                           a.(prompt); "'"])) ;;
  catch (request_and_convert c a)
    (fun e =>
       emit (Notify ERROR (fstr ["Failed to generate images: "; e.(exn_str)])) ;;
       emit (Log ERROR (fstr ["Failed to generate images: "; e.(exn_str)])) ;;
       raise e).

End Handler.

(** ** The tool as the framework exposes it *)

(** The arguments of a [generate_image] call as the client sends them.
    A field the client leaves out is [None]; for the optional parameters
    [Some None] is an explicit null. *)
Record Arguments : Type :=
  { arg_prompt : option string;
    arg_image_size : option (option string);
    arg_num_images : option (option Z);
    arg_aspect_ratio : option (option string);
    arg_person_generation : option (option string) }.

(** [Optional[Literal[...]]]. *)
Definition optional_literal (allowed : list string) (v : option string) : bool :=
  match v with
  | None => true
  | Some s => existsb (String.eqb s) allowed
  end.

(** [Optional[int]] with [Field(ge=lo, le=hi)]. *)
Definition optional_int_between (lo hi : Z) (v : option Z) : bool :=
  match v with
  | None => true
  | Some n => (lo <=? n)%Z && (n <=? hi)%Z
  end.

(** [str] with [Field(max_length=n)]; one element of the string stands
    for one character of the prompt. *)
Definition max_length (n : nat) (s : string) : bool := (String.length s <=? n)%nat.

Definition ValidationError (field : string) : Exn := mkExn "ValidationError" field.

(** A parameter with a default: the default stands in for a missing
    argument, a supplied argument has to satisfy the annotation. *)
Definition bind_optional {A} (field : string) (ok : A -> bool) (default : A)
    (supplied : option A) : Exn + A :=
  match supplied with
  | None => inr default
  | Some v => if ok v then inr v else inl (ValidationError field)
  end.

(** A parameter without a default. *)
Definition bind_required {A} (field : string) (ok : A -> bool)
    (supplied : option A) : Exn + A :=
  match supplied with
  | None => inl (ValidationError field)
  | Some v => if ok v then inr v else inl (ValidationError field)
  end.

(** Binding the arguments to the signature of lines 21-39. *)
Definition bind_arguments (args : Arguments) : Exn + Params :=
  match bind_required "prompt" (max_length 1920) args.(arg_prompt) with
  | inl e => inl e
  | inr p =>
  match bind_optional "image_size" (optional_literal ["1K"; "2K"]) (Some "1K")
          args.(arg_image_size) with
  | inl e => inl e
  | inr size =>
  match bind_optional "num_images" (optional_int_between 1 4) (Some 4%Z)
          args.(arg_num_images) with
  | inl e => inl e
  | inr n =>
  match bind_optional "aspect_ratio"
          (optional_literal ["1:1"; "3:4"; "4:3"; "9:16"; "16:9"]) (Some "16:9")
          args.(arg_aspect_ratio) with
  | inl e => inl e
  | inr ratio =>
  match bind_optional "person_generation"
          (optional_literal ["dont_allow"; "allow_adult"; "allow_all"]) (Some "allow_adult")
          args.(arg_person_generation) with
  | inl e => inl e
  | inr person =>
      inr {| prompt := p; image_size := size; num_images := n;
             aspect_ratio := ratio; person_generation := person |}
  end end end end end.

(** A tool call: the handler body runs only on arguments that bind. *)
Definition call_tool (P : Provider) (G : Globals) (args : Arguments) : Run (list ImageContent) :=
  match bind_arguments args with
  | inl e => raise e
  | inr a => generate_image P G a
  end.

(** ** The process entry point *)

(** Where an option's value can come from: the command line and the
    option's environment variable, both as click hands them over. *)
Record Source (A : Type) : Type := { flag : option A; envvar : option A }.

(** Flag, then environment variable, then default. *)
Definition resolve {A} (s : Source A) (default : A) : A :=
  match s.(flag) with
  | Some v => v
  | None =>
      match s.(envvar) with
      | Some v => v
      | None => default
      end
  end.

(** The six options of lines 87-116. *)
Record CommandLine : Type :=
  { opt_transport : Source string;     (* --transport  / TRANSPORT *)
    opt_port : Source Z;               (* --port       / PORT *)
    opt_host : Source string;          (* --host       / HOST, as [str(host)] *)
    opt_log_level : Source string;     (* --log-level  / LOG_LEVEL *)
    opt_model : Source string;         (* --model      / MODEL *)
    opt_api_key : Source string }.     (* --api-key    / GEMINI_API_KEY *)

(** What [main] does to the process. *)
Inductive Startup : Type :=
| ConfigureLogging (log_level : string)             (* configure_logging(..) *)
| Assign (global : string) (value : string)         (* MODEL = .. / GEMINI_API_KEY = .. *)
| LogInfo (msg : string)                            (* logger.info(..) *)
| McpRun (transport : string) (bind : option (string * Z)).   (* mcp.run(..) *)

(** Lines 117-130: the steps [main] takes, and the globals the server
    runs with. *)
Definition main (transport : string) (port : Z) (host : string) (log_level : string)
    (model_ : string) (api_key : string) (g : Globals) : list Startup * Globals :=
  let g1 := {| MODEL := model_; GEMINI_API_KEY := g.(GEMINI_API_KEY) |} in
  let g2 := {| MODEL := g1.(MODEL); GEMINI_API_KEY := api_key |} in
  ([ConfigureLogging log_level;
    Assign "MODEL" model_;
    Assign "GEMINI_API_KEY" api_key;
    LogInfo (fstr ["Using model: "; g2.(MODEL)]);
    if String.eqb transport "streamable-http"
    then McpRun "streamable-http" (Some (host, port))
    else McpRun "stdio" None],
   g2).

(** [main] behind its click decorators; the defaults of [--model] and
    [--api-key] are the globals' values when the module is loaded. *)
Definition cli (cl : CommandLine) : list Startup * Globals :=
  main (resolve cl.(opt_transport) "streamable-http")
       (resolve cl.(opt_port) 3000%Z)
       (resolve cl.(opt_host) "127.0.0.1")
       (resolve cl.(opt_log_level) "INFO")
       (resolve cl.(opt_model) initial_globals.(MODEL))
       (resolve cl.(opt_api_key) initial_globals.(GEMINI_API_KEY))
       initial_globals.

(** A provider that accepts every credential and answers every call with
    [r]. *)
Definition answering (r : Exn + GenerateImagesResponse) : Provider :=
  {| client := unit; Client := fun _ => inr tt; generate_images := fun _ _ => r |}.

Definition entry (b : option (option bytes)) : GeneratedImage :=
  {| image := option_map (fun ob => {| image_bytes := ob |}) b |}.

Definition fox : Params :=
  {| prompt := "a red fox in snow"; image_size := Some "1K"; num_images := Some 2%Z;
     aspect_ratio := Some "1:1"; person_generation := Some "allow_adult" |}.

(** ** The vocabulary of the statements, and sample inputs *)

Definition is_request (ev : Event) : bool :=
  match ev with Request _ => true | _ => false end.


(** The events up to the dispatch, when the client could be built. *)
Definition prelude (G : Globals) (a : Params) : Trace :=
  [Log INFO (fstr ["Generating "; str_opt_int a.(num_images);
                   " images with prompt: '"; a.(prompt); "'"]);
   Log INFO "Creating client";
   NewClient G.(GEMINI_API_KEY);
   Log INFO "making request";
   Notify INFO (fstr ["Making request to generate images with prompt '"; a.(prompt); "'"])].

(** The two lines of an [except] block before its [raise e]. *)
Definition report (what : string) (e : Exn) : Trace :=
  [Notify ERROR (fstr [what; e.(exn_str)]); Log ERROR (fstr [what; e.(exn_str)])].

Definition has_image (g : GeneratedImage) : bool :=
  match g.(image) with Some _ => true | None => false end.

Definition carries_bytes (g : GeneratedImage) : bool :=
  match g.(image) with
  | Some img => match img.(image_bytes) with Some _ => true | None => false end
  | None => false
  end.

(** The bytes of the entries that carry some, in the order of the entries. *)
Fixpoint payloads (entries : list GeneratedImage) : list bytes :=
  match entries with
  | [] => []
  | g :: rest =>
      match g.(image) with
      | Some {| image_bytes := Some d |} => d :: payloads rest
      | _ => payloads rest
      end
  end.

Definition count {A} (p : A -> bool) (l : list A) : nat := length (filter p l).

Definition png_image (d : bytes) : FastmcpImage :=
  {| data := Some d; _format := Some "png"; _mime_type := "image/png" |}.

Definition png_content (d : bytes) : ImageContent :=
  {| type := "image"; content_data := Base64.b64encode d; mimeType := "image/png" |}.

Definition two_entries : GenerateImagesResponse :=
  {| generated_images := Some [entry (Some (Some [x89; x50])); entry (Some (Some [x4e; x47]))] |}.

Definition no_entries : GenerateImagesResponse := {| generated_images := Some [] |}.

(** A provider whose client cannot be built. *)
Definition refusing (e : Exn) : Provider :=
  {| client := unit; Client := fun _ => inl e;
     generate_images := fun _ _ => inr no_entries |}.

Definition bad_key : Exn := mkExn "ValueError" "API key not valid".

(** A response in which the second entry has an image object without
    bytes. *)
Definition second_without_bytes : list GeneratedImage :=
  [entry (Some (Some [x89; x50])); entry (Some None)].

(** The statement of C2 for one call: a success with one image content per
    entry that carries bytes, each tagged PNG. *)
Definition one_content_per_payload (P : Provider) (G : Globals) (a : Params)
    (entries : list GeneratedImage) : Prop :=
  exists images,
    outcome (generate_image P G a) = inr images /\
    length images = count carries_bytes entries /\
    Forall (fun i => i.(mimeType) = "image/png") images.

(** Three entries, the middle one filtered out by the provider. *)
Definition middle_missing : list GeneratedImage :=
  [entry (Some (Some [x4d])); entry None; entry (Some (Some []))].

(** A provider whose call raises. *)
Definition failing (e : Exn) : Provider :=
  {| client := unit; Client := fun _ => inr tt; generate_images := fun _ _ => inl e |}.

Definition quota : Exn := mkExn "ClientError" "429 RESOURCE_EXHAUSTED".

(** A call that supplies the prompt and nothing else. *)
Definition only_prompt (p : string) : Arguments :=
  {| arg_prompt := Some p; arg_image_size := None; arg_num_images := None;
     arg_aspect_ratio := None; arg_person_generation := None |}.

Definition five_images : Arguments :=
  {| arg_prompt := Some "sunset"; arg_image_size := None; arg_num_images := Some (Some 5%Z);
     arg_aspect_ratio := None; arg_person_generation := None |}.

Fixpoint replicate (n : nat) (c : ascii) : string :=
  match n with
  | O => EmptyString
  | S m => String c (replicate m c)
  end.

Definition is_assign (name : string) (ev : Startup) : bool :=
  match ev with Assign g _ => String.eqb g name | _ => false end.

Definition is_run (ev : Startup) : bool :=
  match ev with McpRun _ _ => true | _ => false end.

(** Started as [--transport stdio] with [MODEL] and [PORT] set in the
    environment. *)
Definition stdio_with_env : CommandLine :=
  {| opt_transport := {| flag := Some "stdio"; envvar := Some "streamable-http" |};
     opt_port := {| flag := None; envvar := Some 8080%Z |};
     opt_host := {| flag := None; envvar := None |};
     opt_log_level := {| flag := None; envvar := None |};
     opt_model := {| flag := None; envvar := Some "imagen-4.0-ultra-generate-001" |};
     opt_api_key := {| flag := Some "k1"; envvar := Some "k2" |} |}.

(** The events of a call whose client cannot be built, up to the attempt. *)
Definition attempt (G : Globals) (a : Params) : Trace :=
  [Log INFO (fstr ["Generating "; str_opt_int a.(num_images);
                   " images with prompt: '"; a.(prompt); "'"]);
   Log INFO "Creating client";
   NewClient G.(GEMINI_API_KEY)].

Definition is_new_client (ev : Event) : bool :=
  match ev with NewClient _ => true | _ => false end.

Definition is_log (ev : Event) : bool :=
  match ev with Log _ _ => true | _ => false end.

Definition is_warning (ev : Event) : bool :=
  match ev with Notify WARNING _ => true | _ => false end.


(** The annotations of lines 23-38, on a bound parameter set. *)
Definition within_annotations (a : Params) : bool :=
  max_length 1920 a.(prompt) &&
  optional_literal ["1K"; "2K"] a.(image_size) &&
  optional_int_between 1 4 a.(num_images) &&
  optional_literal ["1:1"; "3:4"; "4:3"; "9:16"; "16:9"] a.(aspect_ratio) &&
  optional_literal ["dont_allow"; "allow_adult"; "allow_all"] a.(person_generation).

(** Whether a supplied optional argument passes its annotation; a missing
    one does. *)
Definition supplied_ok {A} (ok : A -> bool) (supplied : option A) : bool :=
  match supplied with
  | None => true
  | Some v => ok v
  end.

(** The annotations of lines 23-38, on the arguments of a call. *)
Definition acceptable (args : Arguments) : bool :=
  match args.(arg_prompt) with
  | None => false
  | Some p => max_length 1920 p
  end &&
  supplied_ok (optional_literal ["1K"; "2K"]) args.(arg_image_size) &&
  supplied_ok (optional_int_between 1 4) args.(arg_num_images) &&
  supplied_ok (optional_literal ["1:1"; "3:4"; "4:3"; "9:16"; "16:9"])
    args.(arg_aspect_ratio) &&
  supplied_ok (optional_literal ["dont_allow"; "allow_adult"; "allow_all"])
    args.(arg_person_generation).

(** The parameter a call runs with: the supplied value, else the default. *)
Definition effective {A} (supplied : option A) (default : A) : A :=
  match supplied with
  | Some v => v
  | None => default
  end.

Definition none_response : GenerateImagesResponse := {| generated_images := None |}.

(** A call that sets the four optional parameters to null. *)
Definition all_null (p : string) : Arguments :=
  {| arg_prompt := Some p; arg_image_size := Some None; arg_num_images := Some None;
     arg_aspect_ratio := Some None; arg_person_generation := Some None |}.

Definition portrait_pair : Arguments :=
  {| arg_prompt := Some "sunset"; arg_image_size := Some (Some "2K");
     arg_num_images := Some (Some 2%Z); arg_aspect_ratio := Some (Some "9:16");
     arg_person_generation := Some None |}.

Definition other_key : Globals :=
  {| MODEL := initial_globals.(MODEL); GEMINI_API_KEY := "AIza-example" |}.

(** The command line [cl] with other sources for [--host] and [--port]. *)
Definition rebound (cl : CommandLine) (host : Source string) (port : Source Z) : CommandLine :=
  {| opt_transport := cl.(opt_transport);
     opt_port := port;
     opt_host := host;
     opt_log_level := cl.(opt_log_level);
     opt_model := cl.(opt_model);
     opt_api_key := cl.(opt_api_key) |}.


(** * Properties *)

Unset Implicit Arguments.

(** ** How a run of the handler is put together *)

Ltac run_step :=
  unfold bind, ret, raise, catch, Monad_Run, MonadExc_Run,
    Run_bind, Run_ret, Run_raise, Run_catch, emit, answer; cbn [fst snd app].

Lemma generate_image_no_client P G a e :
  P.(Client) G.(GEMINI_API_KEY) = inl e ->
  generate_image P G a =
    ([Log INFO (fstr ["Generating "; str_opt_int a.(num_images);
                      " images with prompt: '"; a.(prompt); "'"]);
      Log INFO "Creating client";
      NewClient G.(GEMINI_API_KEY)] ++ report "Failed to create Gemini client: " e,
     inl e).
Proof.
  intros H. unfold generate_image, create_client. run_step. rewrite H. reflexivity.
Qed.

Lemma generate_image_with_client P G a c :
  P.(Client) G.(GEMINI_API_KEY) = inr c ->
  generate_image P G a =
    match request_and_convert P G c a with
    | (t, inl e) => (prelude G a ++ t ++ report "Failed to generate images: " e, inl e)
    | (t, inr images) => (prelude G a ++ t, inr images)
    end.
Proof.
  intros H. unfold generate_image, create_client. run_step. rewrite H.
  destruct (request_and_convert P G c a) as [t [e | images]]; reflexivity.
Qed.

Lemma wrap_images_silent entries : forall acc,
  trace_of (wrap_images entries acc) = [].
Proof.
  induction entries as [| g rest IH]; intros acc; cbn.
  - reflexivity.
  - destruct (image g) as [img |]; [| apply IH].
    destruct (image_bytes img) as [d |]; cbn; [| reflexivity].
    specialize (IH (acc ++ [{| data := Some d; _format := Some "png";
                               _mime_type := _get_mime_type (Some "png") |}])).
    unfold trace_of in IH.
    destruct (wrap_images rest _) as [t r]. cbn in *. exact IH.
Qed.

Lemma convert_images_silent imgs :
  trace_of (convert_images imgs) = [].
Proof.
  induction imgs as [| img rest IH]; cbn; [reflexivity |].
  unfold to_image_content. destruct (data img) as [d |]; cbn; [| reflexivity].
  unfold trace_of in IH. destruct (convert_images rest) as [t [e | cs]]; cbn in *.
  - exact IH.
  - rewrite IH. reflexivity.
Qed.

(** ** What the loop and the conversion compute *)

Lemma payloads_count entries :
  length (payloads entries) = count carries_bytes entries.
Proof.
  unfold count.
  induction entries as [| [[[[d |]] |]] rest IH]; cbn; auto.
Qed.

Lemma wrap_images_usable entries : forall acc,
  Forall (fun g => has_image g = carries_bytes g) entries ->
  wrap_images entries acc = ([], inr (acc ++ map png_image (payloads entries))).
Proof.
  induction entries as [| [[[[d |]] |]] rest IH]; intros acc Hall; cbn.
  - rewrite app_nil_r. reflexivity.
  - inversion_clear Hall as [| ? ? _ Hrest].
    rewrite (IH _ Hrest). cbn. rewrite <- app_assoc. reflexivity.
  - inversion_clear Hall as [| ? ? Hg _]. discriminate Hg.
  - inversion_clear Hall as [| ? ? _ Hrest]. apply IH, Hrest.
Qed.

Lemma wrap_images_bytesless entries : forall acc,
  Exists (fun g => has_image g <> carries_bytes g) entries ->
  wrap_images entries acc = ([], inl (ValueError "Either path or data must be provided")).
Proof.
  induction entries as [| [[[[d |]] |]] rest IH]; intros acc Hex; cbn.
  - inversion Hex.
  - inversion_clear Hex as [? ? Hg | ? ? Hrest]; [now elim Hg |].
    rewrite (IH _ Hrest). reflexivity.
  - reflexivity.
  - inversion_clear Hex as [? ? Hg | ? ? Hrest]; [now elim Hg |].
    apply IH, Hrest.
Qed.

Lemma convert_images_png (bs : list bytes) :
  convert_images (map png_image bs) = ([], inr (map png_content bs)).
Proof.
  induction bs as [| d rest IH]; cbn; [reflexivity |].
  rewrite IH. reflexivity.
Qed.

(** ** The three ways the second [try] body can go *)

Section Dispatch.

Variables (P : Provider) (G : Globals) (c : P.(client)) (a : Params).

Lemma provider_raises e :
  P.(generate_images) c (request_of G a) = inl e ->
  request_and_convert P G c a = ([Request (request_of G a)], inl e).
Proof.
  intros H. unfold request_and_convert. run_step. rewrite H. reflexivity.
Qed.

Lemma provider_returns_nothing r :
  P.(generate_images) c (request_of G a) = inr r ->
  falsy r.(generated_images) = true ->
  request_and_convert P G c a =
    ([Request (request_of G a); Notify WARNING "No images were generated."],
     inl (ValueError "No images were generated.")).
Proof.
  intros H Hf. unfold request_and_convert. run_step. rewrite H, Hf. reflexivity.
Qed.

Lemma provider_returns_entries r :
  P.(generate_images) c (request_of G a) = inr r ->
  falsy r.(generated_images) = false ->
  request_and_convert P G c a =
    match outcome (wrap_images (iter r.(generated_images)) []) with
    | inl e => ([Request (request_of G a)], inl e)
    | inr fastmcp_images =>
        match outcome (convert_images fastmcp_images) with
        | inl e => ([Request (request_of G a)], inl e)
        | inr images =>
            ([Request (request_of G a);
              Notify INFO (fstr ["Successfully generated "; str_len images; " images."])],
             inr images)
        end
    end.
Proof.
  intros H Hf. unfold request_and_convert. run_step. rewrite H, Hf.
  pose proof (wrap_images_silent (iter r.(generated_images)) []) as Hw.
  unfold trace_of, outcome in *.
  destruct (wrap_images _ _) as [tw [e | imgs]]; cbn in *; subst tw; [reflexivity |].
  pose proof (convert_images_silent imgs) as Hc. unfold trace_of in Hc.
  destruct (convert_images imgs) as [tc [e | cs]]; cbn in *; subst tc; reflexivity.
Qed.

(** Whatever happens, the body starts with the one request and sends no
    other. *)
Lemma request_and_convert_trace :
  exists rest,
    trace_of (request_and_convert P G c a) = Request (request_of G a) :: rest /\
    filter is_request rest = [].
Proof.
  destruct (P.(generate_images) c (request_of G a)) as [e | r] eqn:H.
  - rewrite (provider_raises e H). now exists [].
  - destruct (falsy r.(generated_images)) eqn:Hf.
    + rewrite (provider_returns_nothing r H Hf). now eexists.
    + rewrite (provider_returns_entries r H Hf).
      destruct (outcome (wrap_images _ _)) as [e | imgs]; [now exists [] |].
      destruct (outcome (convert_images imgs)) as [e | cs]; [now exists [] |].
      now eexists.
Qed.

End Dispatch.

(** ** Sample runs *)

(** The first scenario of the spec: two entries, both with bytes. *)
Example fox_two_images :
  generate_image (answering (inr two_entries)) initial_globals fox =
    (prelude initial_globals fox ++
       [Request (request_of initial_globals fox);
        Notify INFO "Successfully generated 2 images."],
     inr [png_content [x89; x50]; png_content [x4e; x47]]).
Proof. reflexivity. Qed.

(** The second scenario: an empty entry list. *)
Example fox_no_images :
  outcome (generate_image (answering (inr no_entries)) initial_globals fox) =
    inl (ValueError "No images were generated.").
Proof. reflexivity. Qed.

(** ** The claims about the handler *)

(** C1. When the provider's response has an empty list of generated-image
    entries, the handler emits the warning notification and the call ends
    with the explicit [ValueError]: it raises, so no result is returned. *)
Theorem empty_response_fails P G a c r :
  P.(Client) G.(GEMINI_API_KEY) = inr c ->
  P.(generate_images) c (request_of G a) = inr r ->
  r.(generated_images) = Some [] ->
  In (Notify WARNING "No images were generated.") (trace_of (generate_image P G a)) /\
  outcome (generate_image P G a) = inl (ValueError "No images were generated.") /\
  (forall images, outcome (generate_image P G a) <> inr images).
Proof.
  intros Hc Hr He.
  assert (Hf : falsy r.(generated_images) = true) by (rewrite He; reflexivity).
  rewrite (generate_image_with_client P G a c Hc), (provider_returns_nothing P G c a r Hr Hf).
  unfold trace_of, outcome; cbn [fst snd].
  repeat split.
  - apply in_or_app. right. cbn. auto.
  - discriminate.
Qed.

Lemma empty_response_fails_witness :
  In (Notify WARNING "No images were generated.")
     (trace_of (generate_image (answering (inr no_entries)) initial_globals fox)) /\
  outcome (generate_image (answering (inr no_entries)) initial_globals fox) =
    inl (ValueError "No images were generated.") /\
  (forall images,
     outcome (generate_image (answering (inr no_entries)) initial_globals fox) <> inr images).
Proof.
  apply (empty_response_fails (answering (inr no_entries)) initial_globals fox tt no_entries);
    reflexivity.
Defined.

(** C10. On an empty list of entries the failure reaches the caller twice:
    after the request, the warning notification is followed by the error
    notification and the error log line of the surrounding [except], which
    catches the [ValueError] raised inside the [try] and raises it again. *)
Theorem empty_response_reported_twice P G a c r :
  P.(Client) G.(GEMINI_API_KEY) = inr c ->
  P.(generate_images) c (request_of G a) = inr r ->
  r.(generated_images) = Some [] ->
  generate_image P G a =
    (prelude G a ++
       [Request (request_of G a);
        Notify WARNING "No images were generated.";
        Notify ERROR "Failed to generate images: No images were generated.";
        Log ERROR "Failed to generate images: No images were generated."],
     inl (ValueError "No images were generated.")).
Proof.
  intros Hc Hr He.
  assert (Hf : falsy r.(generated_images) = true) by (rewrite He; reflexivity).
  rewrite (generate_image_with_client P G a c Hc), (provider_returns_nothing P G c a r Hr Hf).
  reflexivity.
Qed.

Lemma empty_response_reported_twice_witness :
  generate_image (answering (inr no_entries)) initial_globals fox =
    (prelude initial_globals fox ++
       [Request (request_of initial_globals fox);
        Notify WARNING "No images were generated.";
        Notify ERROR "Failed to generate images: No images were generated.";
        Log ERROR "Failed to generate images: No images were generated."],
     inl (ValueError "No images were generated.")).
Proof.
  apply (empty_response_reported_twice (answering (inr no_entries)) initial_globals fox
           tt no_entries); reflexivity.
Defined.

(** C3. When building the provider client raises, the handler sends an
    error notification, writes an error log line and raises the same
    exception; no generation request is sent and nothing is returned. *)
Theorem client_failure_reported P G a e :
  P.(Client) G.(GEMINI_API_KEY) = inl e ->
  trace_of (generate_image P G a) =
    [Log INFO (fstr ["Generating "; str_opt_int a.(num_images);
                     " images with prompt: '"; a.(prompt); "'"]);
     Log INFO "Creating client";
     NewClient G.(GEMINI_API_KEY);
     Notify ERROR (fstr ["Failed to create Gemini client: "; e.(exn_str)]);
     Log ERROR (fstr ["Failed to create Gemini client: "; e.(exn_str)])] /\
  outcome (generate_image P G a) = inl e /\
  filter is_request (trace_of (generate_image P G a)) = [].
Proof.
  intros H. rewrite (generate_image_no_client P G a e H). repeat split.
Qed.

Lemma client_failure_reported_witness :
  trace_of (generate_image (refusing bad_key) initial_globals fox) =
    [Log INFO "Generating 2 images with prompt: 'a red fox in snow'";
     Log INFO "Creating client";
     NewClient "unknown";
     Notify ERROR "Failed to create Gemini client: API key not valid";
     Log ERROR "Failed to create Gemini client: API key not valid"] /\
  outcome (generate_image (refusing bad_key) initial_globals fox) = inl bad_key /\
  filter is_request (trace_of (generate_image (refusing bad_key) initial_globals fox)) = [].
Proof.
  apply (client_failure_reported (refusing bad_key) initial_globals fox bad_key).
  reflexivity.
Defined.

Lemma single_request P G a c :
  P.(Client) G.(GEMINI_API_KEY) = inr c ->
  filter is_request (trace_of (generate_image P G a)) = [Request (request_of G a)].
Proof.
  intros Hc. rewrite (generate_image_with_client P G a c Hc).
  destruct (request_and_convert_trace P G c a) as (rest & Ht & Hrest).
  unfold trace_of in *.
  destruct (request_and_convert P G c a) as [t [e | images]]; cbn [fst] in *; subst t;
    rewrite !filter_app; cbn; rewrite Hrest; reflexivity.
Qed.

(** C7. A call that gets past the construction of the client sends exactly
    one generation request: the global model identifier, the prompt, the
    image count, the size, the aspect ratio and the person-generation policy
    as given, and the MIME type image/png.  Whatever the provider answers,
    no second request follows. *)
Theorem exactly_one_request P G a c :
  P.(Client) G.(GEMINI_API_KEY) = inr c ->
  filter is_request (trace_of (generate_image P G a)) =
    [Request {| model := G.(MODEL);
                call_prompt := a.(prompt);
                config := {| number_of_images := a.(num_images);
                             cfg_image_size := a.(image_size);
                             cfg_aspect_ratio := a.(aspect_ratio);
                             cfg_person_generation := a.(person_generation);
                             output_mime_type := "image/png" |} |}].
Proof.
  intros Hc. exact (single_request P G a c Hc).
Qed.

Lemma exactly_one_request_witness :
  filter is_request (trace_of (generate_image (answering (inr two_entries)) initial_globals fox)) =
    [Request {| model := "imagen-4.0-generate-001";
                call_prompt := "a red fox in snow";
                config := {| number_of_images := Some 2%Z;
                             cfg_image_size := Some "1K";
                             cfg_aspect_ratio := Some "1:1";
                             cfg_person_generation := Some "allow_adult";
                             output_mime_type := "image/png" |} |}].
Proof.
  apply (exactly_one_request (answering (inr two_entries)) initial_globals fox tt).
  reflexivity.
Defined.

(** C2 as stated fails: of two entries one carries bytes (N = 2, K = 1),
    the other has an image object without bytes.  The loop only skips
    entries whose [image] is [None], so the second entry reaches the
    [Image] constructor, which raises; the call fails instead of returning
    one image. *)
Lemma image_without_bytes_fails :
  second_without_bytes <> [] /\
  count carries_bytes second_without_bytes = 1 /\
  outcome (generate_image
             (answering (inr {| generated_images := Some second_without_bytes |}))
             initial_globals fox) =
    inl (ValueError "Either path or data must be provided") /\
  ~ one_content_per_payload
      (answering (inr {| generated_images := Some second_without_bytes |}))
      initial_globals fox second_without_bytes.
Proof.
  repeat split; try discriminate.
  intros (images & Hout & _). discriminate Hout.
Qed.

(** C2, amended.  When the provider returns N >= 1 entries, each of which
    either has no image object or has one that carries bytes, and K of them
    carry bytes, the call succeeds with exactly K image contents: the
    base64 of each entry's bytes, tagged image/png, in the order of the
    entries.  This holds for K = 0 too: only the raw list is tested for
    emptiness. *)
Theorem present_images_returned P G a c r entries :
  P.(Client) G.(GEMINI_API_KEY) = inr c ->
  P.(generate_images) c (request_of G a) = inr r ->
  r.(generated_images) = Some entries ->
  entries <> [] ->
  Forall (fun g => has_image g = carries_bytes g) entries ->
  outcome (generate_image P G a) = inr (map png_content (payloads entries)) /\
  length (map png_content (payloads entries)) = count carries_bytes entries /\
  Forall (fun i => i.(mimeType) = "image/png") (map png_content (payloads entries)).
Proof.
  intros Hc Hr He Hne Hall.
  assert (Hf : falsy r.(generated_images) = false)
    by (rewrite He; destruct entries; [contradiction | reflexivity]).
  rewrite (generate_image_with_client P G a c Hc), (provider_returns_entries P G c a r Hr Hf).
  rewrite He. cbn [iter].
  rewrite (wrap_images_usable entries [] Hall). cbn [outcome snd app].
  rewrite convert_images_png. cbn [outcome snd].
  repeat split.
  - rewrite length_map. apply payloads_count.
  - apply Forall_forall. intros i Hi. apply in_map_iff in Hi.
    destruct Hi as (d & <- & _). reflexivity.
Qed.

Lemma present_images_returned_witness :
  outcome (generate_image (answering (inr {| generated_images := Some middle_missing |}))
             initial_globals fox) =
    inr (map png_content (payloads middle_missing)) /\
  length (map png_content (payloads middle_missing)) = count carries_bytes middle_missing /\
  Forall (fun i => i.(mimeType) = "image/png") (map png_content (payloads middle_missing)).
Proof.
  apply (present_images_returned
           (answering (inr {| generated_images := Some middle_missing |}))
           initial_globals fox tt {| generated_images := Some middle_missing |} middle_missing).
  - reflexivity.
  - reflexivity.
  - reflexivity.
  - discriminate.
  - repeat constructor.
Defined.

(** The case K = 0 of the amended claim: entries, none with an image. *)
Example all_filtered_is_success :
  generate_image (answering (inr {| generated_images := Some [entry None; entry None] |}))
    initial_globals fox =
    (prelude initial_globals fox ++
       [Request (request_of initial_globals fox);
        Notify INFO "Successfully generated 0 images."],
     inr []).
Proof. reflexivity. Qed.

(** What the amended claim leaves out: one image object without bytes
    among the entries makes the whole call fail. *)
Lemma image_without_bytes_raises P G a c r entries :
  P.(Client) G.(GEMINI_API_KEY) = inr c ->
  P.(generate_images) c (request_of G a) = inr r ->
  r.(generated_images) = Some entries ->
  Exists (fun g => has_image g <> carries_bytes g) entries ->
  outcome (generate_image P G a) = inl (ValueError "Either path or data must be provided").
Proof.
  intros Hc Hr He Hex.
  assert (Hf : falsy r.(generated_images) = false).
  { rewrite He. destruct entries; [inversion Hex | reflexivity]. }
  rewrite (generate_image_with_client P G a c Hc), (provider_returns_entries P G c a r Hr Hf).
  rewrite He. cbn [iter]. rewrite (wrap_images_bytesless entries [] Hex). reflexivity.
Qed.

(** C4. Whatever exception the second [try] body raises (from the provider
    call, the emptiness check, the wrapping or the conversion), the handler
    sends the error notification, writes the error log line and raises that
    same exception; a call that raises returns no image list. *)
Theorem body_exception_reported P G a c t e :
  P.(Client) G.(GEMINI_API_KEY) = inr c ->
  request_and_convert P G c a = (t, inl e) ->
  generate_image P G a =
    (prelude G a ++ t ++
       [Notify ERROR (fstr ["Failed to generate images: "; e.(exn_str)]);
        Log ERROR (fstr ["Failed to generate images: "; e.(exn_str)])],
     inl e) /\
  (forall images, outcome (generate_image P G a) <> inr images).
Proof.
  intros Hc Hb. rewrite (generate_image_with_client P G a c Hc), Hb.
  split; [reflexivity | discriminate].
Qed.

Lemma body_exception_reported_witness :
  generate_image (failing quota) initial_globals fox =
    (prelude initial_globals fox ++ [Request (request_of initial_globals fox)] ++
       [Notify ERROR "Failed to generate images: 429 RESOURCE_EXHAUSTED";
        Log ERROR "Failed to generate images: 429 RESOURCE_EXHAUSTED"],
     inl quota) /\
  (forall images, outcome (generate_image (failing quota) initial_globals fox) <> inr images).
Proof.
  apply (body_exception_reported (failing quota) initial_globals fox tt
           [Request (request_of initial_globals fox)] quota); reflexivity.
Defined.

(** A returned list is always the whole list the body computed: the
    handler has no path that returns after an exception. *)
Lemma returned_list_is_complete P G a c images :
  P.(Client) G.(GEMINI_API_KEY) = inr c ->
  outcome (generate_image P G a) = inr images ->
  outcome (request_and_convert P G c a) = inr images.
Proof.
  intros Hc. rewrite (generate_image_with_client P G a c Hc).
  destruct (request_and_convert P G c a) as [t [e | imgs]]; cbn; [discriminate | auto].
Qed.




(** The text of some counts. *)
Example count_texts :
  (str_len (@nil bytes), str_len [x00; x01], str_len (repeat x00 10), str_len (repeat x00 123)) =
    ("0", "2", "10", "123").
Proof. reflexivity. Qed.



(** ** The claims about the arguments *)

(** C5. When only the prompt is supplied, the handler runs with
    num_images = 4, image_size = 1K, aspect_ratio = 16:9 and
    person_generation = allow_adult, and these are the values of the
    request that goes to the provider. *)
Theorem defaults_when_absent P G p c :
  (String.length p <= 1920)%nat ->
  P.(Client) G.(GEMINI_API_KEY) = inr c ->
  bind_arguments (only_prompt p) =
    inr {| prompt := p; image_size := Some "1K"; num_images := Some 4%Z;
           aspect_ratio := Some "16:9"; person_generation := Some "allow_adult" |} /\
  filter is_request (trace_of (call_tool P G (only_prompt p))) =
    [Request {| model := G.(MODEL);
                call_prompt := p;
                config := {| number_of_images := Some 4%Z;
                             cfg_image_size := Some "1K";
                             cfg_aspect_ratio := Some "16:9";
                             cfg_person_generation := Some "allow_adult";
                             output_mime_type := "image/png" |} |}].
Proof.
  intros Hlen Hc.
  assert (Hb : bind_arguments (only_prompt p) =
    inr {| prompt := p; image_size := Some "1K"; num_images := Some 4%Z;
           aspect_ratio := Some "16:9"; person_generation := Some "allow_adult" |}).
  { unfold bind_arguments, bind_required, max_length. cbn.
    apply Nat.leb_le in Hlen. rewrite Hlen. reflexivity. }
  split; [exact Hb |].
  unfold call_tool. rewrite Hb.
  rewrite (single_request P G _ c Hc). reflexivity.
Qed.

Lemma defaults_when_absent_witness :
  bind_arguments (only_prompt "sunset") =
    inr {| prompt := "sunset"; image_size := Some "1K"; num_images := Some 4%Z;
           aspect_ratio := Some "16:9"; person_generation := Some "allow_adult" |} /\
  filter is_request
    (trace_of (call_tool (answering (inr two_entries)) initial_globals (only_prompt "sunset"))) =
    [Request {| model := "imagen-4.0-generate-001";
                call_prompt := "sunset";
                config := {| number_of_images := Some 4%Z;
                             cfg_image_size := Some "1K";
                             cfg_aspect_ratio := Some "16:9";
                             cfg_person_generation := Some "allow_adult";
                             output_mime_type := "image/png" |} |}].
Proof.
  apply (defaults_when_absent (answering (inr two_entries)) initial_globals "sunset" tt).
  - cbn. lia.
  - reflexivity.
Defined.

Lemma bind_required_too_long p :
  (1920 < String.length p)%nat ->
  bind_required "prompt" (max_length 1920) (Some p) = inl (ValidationError "prompt").
Proof.
  intros H. unfold bind_required, max_length.
  apply Nat.leb_gt in H. rewrite H. reflexivity.
Qed.

Lemma bind_optional_out_of_range n :
  (n < 1 \/ 4 < n)%Z ->
  bind_optional "num_images" (optional_int_between 1 4) (Some 4%Z) (Some (Some n)) =
    inl (ValidationError "num_images").
Proof.
  intros H. unfold bind_optional, optional_int_between.
  destruct (1 <=? n)%Z eqn:H1, (n <=? 4)%Z eqn:H4; cbn; try reflexivity.
  apply Z.leb_le in H1, H4. lia.
Qed.

(** C6. A call whose num_images lies outside 1..4, or whose prompt is
    longer than 1920 characters, is refused when its arguments are bound:
    the handler body does not run, so no client is built and no request
    is sent. *)
Theorem invalid_arguments_rejected P G args :
  (exists n, args.(arg_num_images) = Some (Some n) /\ (n < 1 \/ 4 < n)%Z) \/
  (exists p, args.(arg_prompt) = Some p /\ (1920 < String.length p)%nat) ->
  trace_of (call_tool P G args) = [] /\
  exists field, outcome (call_tool P G args) = inl (ValidationError field).
Proof.
  intros [(n & Hn & Hrange) | (p & Hp & Hlong)]; unfold call_tool, bind_arguments.
  - rewrite Hn, (bind_optional_out_of_range n Hrange).
    destruct (bind_required _ _ _) as [e | p] eqn:Hprompt.
    + unfold bind_required in Hprompt.
      destruct (arg_prompt args) as [q |]; [destruct (max_length 1920 q) |];
        inversion Hprompt; subst e; split; [reflexivity | now eexists | reflexivity | now eexists].
    + destruct (bind_optional "image_size" _ _ _) as [e | size] eqn:Hsize.
      * unfold bind_optional in Hsize.
        destruct (arg_image_size args) as [v |]; [destruct (optional_literal _ v) |];
          inversion Hsize; subst e; split; [reflexivity | now eexists].
      * split; [reflexivity | now eexists].
  - rewrite Hp, (bind_required_too_long p Hlong). split; [reflexivity | now eexists].
Qed.

Lemma invalid_arguments_rejected_witness :
  trace_of (call_tool (answering (inr two_entries)) initial_globals five_images) = [] /\
  exists field,
    outcome (call_tool (answering (inr two_entries)) initial_globals five_images) =
      inl (ValidationError field).
Proof.
  apply (invalid_arguments_rejected (answering (inr two_entries)) initial_globals five_images).
  left. exists 5%Z. split; [reflexivity | lia].
Defined.

(** A prompt of 1920 characters passes, one of 1921 does not. *)
Example prompt_at_the_limit :
  filter is_request
    (trace_of (call_tool (answering (inr two_entries)) initial_globals
                 (only_prompt (replicate 1920 "a")))) <> [] /\
  call_tool (answering (inr two_entries)) initial_globals (only_prompt (replicate 1921 "a")) =
    ([], inl (ValidationError "prompt")).
Proof.
  split; [vm_compute; discriminate | vm_compute; reflexivity].
Qed.

(** ** The claim about the entry point *)

(** Whether the client can be built or not, the handler builds it from the
    global credential, and the request it would send names the global
    model. *)
Lemma handler_reads_globals P G a :
  In (NewClient G.(GEMINI_API_KEY)) (trace_of (generate_image P G a)) /\
  (request_of G a).(model) = G.(MODEL).
Proof.
  split; [| reflexivity].
  destruct (P.(Client) G.(GEMINI_API_KEY)) as [e | c] eqn:Hc.
  - rewrite (generate_image_no_client P G a e Hc). cbn. auto.
  - rewrite (generate_image_with_client P G a c Hc).
    destruct (request_and_convert P G c a) as [t [e | images]]; cbn; auto.
Qed.

(** C9. Each option is the flag's value if the flag is given, else the
    environment variable's if that is set, else the default
    (streamable-http, 3000, 127.0.0.1, INFO, imagen-4.0-generate-001,
    unknown).  [main] assigns the model and the credential to the globals
    once each, before the single [mcp.run]; the server then runs with
    these globals, over HTTP on host and port when the transport is
    streamable-http and over stdio otherwise. *)
Theorem entry_point_configuration cl :
  (forall A (s : Source A) (d v : A), s.(flag) = Some v -> resolve s d = v) /\
  (forall A (s : Source A) (d v : A),
     s.(flag) = None -> s.(envvar) = Some v -> resolve s d = v) /\
  (forall A (s : Source A) (d : A),
     s.(flag) = None -> s.(envvar) = None -> resolve s d = d) /\
  (exists run,
     fst (cli cl) =
       [ConfigureLogging (resolve cl.(opt_log_level) "INFO");
        Assign "MODEL" (resolve cl.(opt_model) "imagen-4.0-generate-001");
        Assign "GEMINI_API_KEY" (resolve cl.(opt_api_key) "unknown");
        LogInfo (fstr ["Using model: "; resolve cl.(opt_model) "imagen-4.0-generate-001"]);
        run] /\
     (resolve cl.(opt_transport) "streamable-http" = "streamable-http" ->
      run = McpRun "streamable-http"
              (Some (resolve cl.(opt_host) "127.0.0.1", resolve cl.(opt_port) 3000%Z))) /\
     (resolve cl.(opt_transport) "streamable-http" <> "streamable-http" ->
      run = McpRun "stdio" None)) /\
  snd (cli cl) =
    {| MODEL := resolve cl.(opt_model) "imagen-4.0-generate-001";
       GEMINI_API_KEY := resolve cl.(opt_api_key) "unknown" |} /\
  count (is_assign "MODEL") (fst (cli cl)) = 1%nat /\
  count (is_assign "GEMINI_API_KEY") (fst (cli cl)) = 1%nat /\
  count is_run (fst (cli cl)) = 1%nat /\
  (forall P a,
     In (NewClient (resolve cl.(opt_api_key) "unknown"))
        (trace_of (generate_image P (snd (cli cl)) a)) /\
     (request_of (snd (cli cl)) a).(model) =
       resolve cl.(opt_model) "imagen-4.0-generate-001").
Proof.
  repeat split.
  - intros A s d v H. unfold resolve. rewrite H. reflexivity.
  - intros A s d v Hf He. unfold resolve. rewrite Hf, He. reflexivity.
  - intros A s d Hf He. unfold resolve. rewrite Hf, He. reflexivity.
  - unfold cli, main. cbn [fst]. eexists. split; [reflexivity |]. split; intros H.
    + rewrite H. reflexivity.
    + apply String.eqb_neq in H. rewrite H. reflexivity.
  - unfold cli, main, count. cbn.
    destruct (String.eqb _ _); reflexivity.
  - unfold cli, main, count. cbn.
    destruct (String.eqb _ _); reflexivity.
  - unfold cli, main, count. cbn.
    destruct (String.eqb _ _); reflexivity.
  - apply (handler_reads_globals P (snd (cli cl)) a).
Qed.

Lemma entry_point_configuration_witness :
  cli stdio_with_env =
    ([ConfigureLogging "INFO";
      Assign "MODEL" "imagen-4.0-ultra-generate-001";
      Assign "GEMINI_API_KEY" "k1";
      LogInfo "Using model: imagen-4.0-ultra-generate-001";
      McpRun "stdio" None],
     {| MODEL := "imagen-4.0-ultra-generate-001"; GEMINI_API_KEY := "k1" |}).
Proof.
  destruct (entry_point_configuration stdio_with_env)
    as (_ & _ & _ & (run & Hsteps & _ & Hstdio) & Hglobals & _).
  rewrite (surjective_pairing (cli stdio_with_env)), Hsteps, Hglobals.
  rewrite Hstdio; [reflexivity | discriminate].
Defined.

(** With nothing on the command line and nothing in the environment the
    server listens on 127.0.0.1:3000 with the globals unchanged. *)
Example all_defaults :
  cli {| opt_transport := {| flag := None; envvar := None |};
         opt_port := {| flag := None; envvar := None |};
         opt_host := {| flag := None; envvar := None |};
         opt_log_level := {| flag := None; envvar := None |};
         opt_model := {| flag := None; envvar := None |};
         opt_api_key := {| flag := None; envvar := None |} |} =
    ([ConfigureLogging "INFO";
      Assign "MODEL" "imagen-4.0-generate-001";
      Assign "GEMINI_API_KEY" "unknown";
      LogInfo "Using model: imagen-4.0-generate-001";
      McpRun "streamable-http" (Some ("127.0.0.1", 3000%Z))],
     initial_globals).
Proof. reflexivity. Qed.

(** * Further properties of the handler *)

(** ** Every run has one of five shapes *)

Lemma usable_or_not (entries : list GeneratedImage) :
  Forall (fun g => has_image g = carries_bytes g) entries \/
  Exists (fun g => has_image g <> carries_bytes g) entries.
Proof.
  induction entries as [| g rest [IH | IH]].
  - left. constructor.
  - destruct (bool_dec (has_image g) (carries_bytes g)) as [Hg | Hg].
    + left. constructor; assumption.
    + right. apply Exists_cons_hd, Hg.
  - right. apply Exists_cons_tl, IH.
Qed.

Lemma generate_image_shapes P G a :
  (exists e,
     P.(Client) G.(GEMINI_API_KEY) = inl e /\
     generate_image P G a =
       (attempt G a ++ report "Failed to create Gemini client: " e, inl e)) \/
  (exists c e,
     P.(Client) G.(GEMINI_API_KEY) = inr c /\
     P.(generate_images) c (request_of G a) = inl e /\
     generate_image P G a =
       (prelude G a ++ [Request (request_of G a)] ++
          report "Failed to generate images: " e, inl e)) \/
  (exists c r,
     P.(Client) G.(GEMINI_API_KEY) = inr c /\
     P.(generate_images) c (request_of G a) = inr r /\
     falsy r.(generated_images) = true /\
     generate_image P G a =
       (prelude G a ++
          [Request (request_of G a); Notify WARNING "No images were generated."] ++
          report "Failed to generate images: " (ValueError "No images were generated."),
        inl (ValueError "No images were generated."))) \/
  (exists c r entries,
     P.(Client) G.(GEMINI_API_KEY) = inr c /\
     P.(generate_images) c (request_of G a) = inr r /\
     r.(generated_images) = Some entries /\ entries <> [] /\
     Exists (fun g => has_image g <> carries_bytes g) entries /\
     generate_image P G a =
       (prelude G a ++ [Request (request_of G a)] ++
          report "Failed to generate images: "
            (ValueError "Either path or data must be provided"),
        inl (ValueError "Either path or data must be provided"))) \/
  (exists c r entries,
     P.(Client) G.(GEMINI_API_KEY) = inr c /\
     P.(generate_images) c (request_of G a) = inr r /\
     r.(generated_images) = Some entries /\ entries <> [] /\
     Forall (fun g => has_image g = carries_bytes g) entries /\
     generate_image P G a =
       (prelude G a ++
          [Request (request_of G a);
           Notify INFO (fstr ["Successfully generated ";
                              str_len (map png_content (payloads entries));
                              " images."])],
        inr (map png_content (payloads entries)))).
Proof.
  destruct (P.(Client) G.(GEMINI_API_KEY)) as [e | c] eqn:Hc.
  { left. exists e. split; [reflexivity |]. apply (generate_image_no_client P G a e Hc). }
  right. rewrite (generate_image_with_client P G a c Hc).
  destruct (P.(generate_images) c (request_of G a)) as [e | r] eqn:Hr.
  { left. exists c, e. rewrite (provider_raises P G c a e Hr). auto. }
  right. destruct (falsy r.(generated_images)) eqn:Hf.
  { left. exists c, r. rewrite (provider_returns_nothing P G c a r Hr Hf). auto. }
  right. rewrite (provider_returns_entries P G c a r Hr Hf).
  destruct r as [[entries |]]; cbn [generated_images iter falsy] in *; [| discriminate Hf].
  assert (Hne : entries <> []) by (destruct entries; [discriminate Hf | discriminate]).
  destruct (usable_or_not entries) as [Hall | Hex].
  - right. exists c, {| generated_images := Some entries |}, entries.
    rewrite (wrap_images_usable entries [] Hall). cbn [outcome snd app].
    rewrite convert_images_png. cbn [outcome snd]. auto 6.
  - left. exists c, {| generated_images := Some entries |}, entries.
    rewrite (wrap_images_bytesless entries [] Hex). cbn [outcome snd]. auto 6.
Qed.

Ltac by_shape P G a :=
  destruct (generate_image_shapes P G a)
    as [(e & Hc & Hrun)
       | [(c & e & Hc & Hr & Hrun)
         | [(c & r & Hc & Hr & Hf & Hrun)
           | [(c & r & entries & Hc & Hr & He & Hne & Hex & Hrun)
             | (c & r & entries & Hc & Hr & He & Hne & Hall & Hrun)]]]].

Lemma payloads_at_most entries :
  (length (payloads entries) <= length entries)%nat.
Proof.
  rewrite payloads_count. unfold count. apply filter_length_le.
Qed.

(** ** What the provider's answer does to the call *)

(** X1. A response whose [generated_images] is [None] is handled like an
    empty list (line 65 tests truthiness): after the request come the
    warning, the error notification and the error log line, and the
    [ValueError] is raised. *)
Theorem missing_list_fails P G a c r :
  P.(Client) G.(GEMINI_API_KEY) = inr c ->
  P.(generate_images) c (request_of G a) = inr r ->
  r.(generated_images) = None ->
  generate_image P G a =
    (prelude G a ++
       [Request (request_of G a);
        Notify WARNING "No images were generated.";
        Notify ERROR "Failed to generate images: No images were generated.";
        Log ERROR "Failed to generate images: No images were generated."],
     inl (ValueError "No images were generated.")).
Proof.
  intros Hc Hr He.
  assert (Hf : falsy r.(generated_images) = true) by (rewrite He; reflexivity).
  rewrite (generate_image_with_client P G a c Hc), (provider_returns_nothing P G c a r Hr Hf).
  reflexivity.
Qed.

Lemma missing_list_fails_witness :
  generate_image (answering (inr none_response)) initial_globals fox =
    (prelude initial_globals fox ++
       [Request (request_of initial_globals fox);
        Notify WARNING "No images were generated.";
        Notify ERROR "Failed to generate images: No images were generated.";
        Log ERROR "Failed to generate images: No images were generated."],
     inl (ValueError "No images were generated.")).
Proof.
  apply (missing_list_fails (answering (inr none_response)) initial_globals fox
           tt none_response); reflexivity.
Defined.

(** X2. One entry with an image object that has no bytes fails the whole
    call, wherever it stands in the list: no image of the other entries
    is returned, no warning and no success notification is sent, and the
    caller gets the error notification with the wrapper's message. *)
Theorem image_without_bytes_fails_call P G a c r entries :
  P.(Client) G.(GEMINI_API_KEY) = inr c ->
  P.(generate_images) c (request_of G a) = inr r ->
  r.(generated_images) = Some entries ->
  Exists (fun g => has_image g <> carries_bytes g) entries ->
  generate_image P G a =
    (prelude G a ++
       [Request (request_of G a);
        Notify ERROR "Failed to generate images: Either path or data must be provided";
        Log ERROR "Failed to generate images: Either path or data must be provided"],
     inl (ValueError "Either path or data must be provided")).
Proof.
  intros Hc Hr He Hex.
  assert (Hf : falsy r.(generated_images) = false).
  { rewrite He. destruct entries; [inversion Hex | reflexivity]. }
  rewrite (generate_image_with_client P G a c Hc), (provider_returns_entries P G c a r Hr Hf).
  rewrite He. cbn [iter]. rewrite (wrap_images_bytesless entries [] Hex). reflexivity.
Qed.

Lemma image_without_bytes_fails_call_witness :
  generate_image (answering (inr {| generated_images := Some second_without_bytes |}))
    initial_globals fox =
    (prelude initial_globals fox ++
       [Request (request_of initial_globals fox);
        Notify ERROR "Failed to generate images: Either path or data must be provided";
        Log ERROR "Failed to generate images: Either path or data must be provided"],
     inl (ValueError "Either path or data must be provided")).
Proof.
  apply (image_without_bytes_fails_call
           (answering (inr {| generated_images := Some second_without_bytes |}))
           initial_globals fox tt {| generated_images := Some second_without_bytes |}
           second_without_bytes).
  - reflexivity.
  - reflexivity.
  - reflexivity.
  - apply Exists_cons_tl, Exists_cons_hd. discriminate.
Defined.

(** X3. Whenever the handler returns a list, the client was built, the
    provider answered with a non-empty list in which every image object
    has bytes, and the list returned is the PNG content of each entry's
    bytes in the order of the entries; it is never longer than the
    provider's list. *)
Theorem success_determines_result P G a images :
  outcome (generate_image P G a) = inr images ->
  exists c r entries,
    P.(Client) G.(GEMINI_API_KEY) = inr c /\
    P.(generate_images) c (request_of G a) = inr r /\
    r.(generated_images) = Some entries /\
    entries <> [] /\
    Forall (fun g => has_image g = carries_bytes g) entries /\
    images = map png_content (payloads entries) /\
    (length images <= length entries)%nat.
Proof.
  intros H. by_shape P G a; rewrite Hrun in H; cbn in H; try discriminate H.
  injection H as <-. exists c, r, entries.
  repeat (split; [assumption || reflexivity |]).
  rewrite length_map. apply payloads_at_most.
Qed.

Lemma success_determines_result_witness :
  exists c r entries,
    (answering (inr {| generated_images := Some middle_missing |})).(Client)
      initial_globals.(GEMINI_API_KEY) = inr c /\
    (answering (inr {| generated_images := Some middle_missing |})).(generate_images) c
      (request_of initial_globals fox) = inr r /\
    r.(generated_images) = Some entries /\
    entries <> [] /\
    Forall (fun g => has_image g = carries_bytes g) entries /\
    [png_content [x4d]; png_content []] = map png_content (payloads entries) /\
    (length [png_content [x4d]; png_content []] <= length entries)%nat.
Proof.
  apply (success_determines_result
           (answering (inr {| generated_images := Some middle_missing |}))
           initial_globals fox [png_content [x4d]; png_content []]).
  reflexivity.
Defined.

(** X4. The warning notification is sent exactly when the provider's list
    is missing or empty: a response with entries never produces it, even
    when no entry has an image and the result is empty. *)
Theorem warning_only_without_entries P G a c r :
  P.(Client) G.(GEMINI_API_KEY) = inr c ->
  P.(generate_images) c (request_of G a) = inr r ->
  filter is_warning (trace_of (generate_image P G a)) =
    if falsy r.(generated_images)
    then [Notify WARNING "No images were generated."]
    else [].
Proof.
  intros Hc Hr. rewrite (generate_image_with_client P G a c Hc).
  destruct (falsy r.(generated_images)) eqn:Hf.
  - rewrite (provider_returns_nothing P G c a r Hr Hf). reflexivity.
  - rewrite (provider_returns_entries P G c a r Hr Hf).
    destruct (outcome (wrap_images _ _)) as [e | imgs]; [reflexivity |].
    destruct (outcome (convert_images imgs)) as [e | cs]; reflexivity.
Qed.

Lemma warning_only_without_entries_witness :
  filter is_warning
    (trace_of (generate_image
                 (answering (inr {| generated_images := Some [entry None; entry None] |}))
                 initial_globals fox)) =
    if falsy (Some [entry None; entry None])
    then [Notify WARNING "No images were generated."]
    else [].
Proof.
  apply (warning_only_without_entries
           (answering (inr {| generated_images := Some [entry None; entry None] |}))
           initial_globals fox tt {| generated_images := Some [entry None; entry None] |});
    reflexivity.
Defined.

(** ** What every call does *)

(** X5. Every call builds exactly one client, from the global credential:
    none is kept from an earlier call and none is built twice. *)
Theorem one_client_per_call P G a :
  filter is_new_client (trace_of (generate_image P G a)) = [NewClient G.(GEMINI_API_KEY)].
Proof.
  by_shape P G a; rewrite Hrun; reflexivity.
Qed.


(** X7. The log of a call: the two opening lines, then either the error of
    the client's construction, or "making request" followed by the error
    line when the call raises and by nothing when it returns.  Neither the
    warning nor the count of delivered images is logged. *)
Theorem log_lines P G a :
  filter is_log (trace_of (generate_image P G a)) =
    [Log INFO (fstr ["Generating "; str_opt_int a.(num_images);
                     " images with prompt: '"; a.(prompt); "'"]);
     Log INFO "Creating client"] ++
    match P.(Client) G.(GEMINI_API_KEY) with
    | inl e => [Log ERROR (fstr ["Failed to create Gemini client: "; e.(exn_str)])]
    | inr _ =>
        Log INFO "making request" ::
        match outcome (generate_image P G a) with
        | inl e => [Log ERROR (fstr ["Failed to generate images: "; e.(exn_str)])]
        | inr _ => []
        end
    end.
Proof.
  by_shape P G a; rewrite Hrun, Hc; reflexivity.
Qed.

(** X8. The credential reaches the client's constructor and nothing else:
    two runs that differ only in the credential, with the constructor
    answering alike, end alike and write the same log lines and
    notifications. *)
Theorem credential_only_builds_client P G1 G2 a :
  G1.(MODEL) = G2.(MODEL) ->
  P.(Client) G1.(GEMINI_API_KEY) = P.(Client) G2.(GEMINI_API_KEY) ->
  outcome (generate_image P G1 a) = outcome (generate_image P G2 a) /\
  filter (fun ev => negb (is_new_client ev)) (trace_of (generate_image P G1 a)) =
  filter (fun ev => negb (is_new_client ev)) (trace_of (generate_image P G2 a)).
Proof.
  destruct G1 as [m k1], G2 as [m2 k2]. cbn [MODEL GEMINI_API_KEY].
  intros <- Hsame.
  destruct (P.(Client) k2) as [e | c] eqn:Hc2.
  - rewrite (generate_image_no_client P {| MODEL := m; GEMINI_API_KEY := k1 |} a e Hsame).
    rewrite (generate_image_no_client P {| MODEL := m; GEMINI_API_KEY := k2 |} a e Hc2).
    split; reflexivity.
  - rewrite (generate_image_with_client P {| MODEL := m; GEMINI_API_KEY := k1 |} a c Hsame).
    rewrite (generate_image_with_client P {| MODEL := m; GEMINI_API_KEY := k2 |} a c Hc2).
    change (request_and_convert P {| MODEL := m; GEMINI_API_KEY := k1 |} c a)
      with (request_and_convert P {| MODEL := m; GEMINI_API_KEY := k2 |} c a).
    destruct (request_and_convert P _ c a) as [t [e | images]]; split; reflexivity.
Qed.

Lemma credential_only_builds_client_witness :
  outcome (generate_image (answering (inr two_entries)) initial_globals fox) =
  outcome (generate_image (answering (inr two_entries)) other_key fox) /\
  filter (fun ev => negb (is_new_client ev))
    (trace_of (generate_image (answering (inr two_entries)) initial_globals fox)) =
  filter (fun ev => negb (is_new_client ev))
    (trace_of (generate_image (answering (inr two_entries)) other_key fox)).
Proof.
  apply (credential_only_builds_client (answering (inr two_entries)) initial_globals
           other_key fox); reflexivity.
Defined.

(** ** Bound arguments *)

Lemma bind_optional_effective {A} (field : string) (ok : A -> bool) (default : A)
    (supplied : option A) :
  bind_optional field ok default supplied =
    if supplied_ok ok supplied then inr (effective supplied default)
    else inl (ValidationError field).
Proof.
  destruct supplied as [v |]; reflexivity.
Qed.

Lemma effective_ok {A} (ok : A -> bool) (supplied : option A) (default : A) :
  supplied_ok ok supplied = true -> ok default = true ->
  ok (effective supplied default) = true.
Proof.
  destruct supplied as [v |]; cbn; auto.
Qed.

Lemma bind_arguments_accepts args :
  acceptable args = true ->
  exists p,
    args.(arg_prompt) = Some p /\
    bind_arguments args =
      inr {| prompt := p;
             image_size := effective args.(arg_image_size) (Some "1K");
             num_images := effective args.(arg_num_images) (Some 4%Z);
             aspect_ratio := effective args.(arg_aspect_ratio) (Some "16:9");
             person_generation :=
               effective args.(arg_person_generation) (Some "allow_adult") |}.
Proof.
  unfold acceptable, bind_arguments. intros H.
  repeat (apply andb_true_iff in H; destruct H as [H ?]).
  destruct (arg_prompt args) as [p |]; [| discriminate H].
  exists p. split; [reflexivity |].
  unfold bind_required. rewrite H, !bind_optional_effective.
  repeat match goal with Hok : supplied_ok _ _ = true |- _ => rewrite Hok; clear Hok end.
  reflexivity.
Qed.

Lemma bind_arguments_refuses args :
  acceptable args = false ->
  exists field, bind_arguments args = inl (ValidationError field).
Proof.
  unfold acceptable, bind_arguments, bind_required. intros H.
  rewrite !bind_optional_effective.
  destruct (arg_prompt args) as [p |]; [| now eexists].
  destruct (max_length 1920 p); [| now eexists].
  destruct (supplied_ok _ (arg_image_size args)); [| now eexists].
  destruct (supplied_ok _ (arg_num_images args)); [| now eexists].
  destruct (supplied_ok _ (arg_aspect_ratio args)); [| now eexists].
  destruct (supplied_ok _ (arg_person_generation args)); [discriminate H | now eexists].
Qed.

Lemma request_in_trace P G a call :
  In (Request call) (trace_of (generate_image P G a)) ->
  call = request_of G a.
Proof.
  intros H.
  assert (Hin : In (Request call) (filter is_request (trace_of (generate_image P G a))))
    by (apply filter_In; split; [exact H | reflexivity]).
  destruct (P.(Client) G.(GEMINI_API_KEY)) as [e | c] eqn:Hc.
  - rewrite (generate_image_no_client P G a e Hc) in Hin. destruct Hin.
  - rewrite (single_request P G a c Hc) in Hin.
    destruct Hin as [Heq | []]. now injection Heq.
Qed.

Lemma accepted_call P G args :
  acceptable args = true ->
  exists a, call_tool P G args = generate_image P G a /\ within_annotations a = true.
Proof.
  intros H. destruct (bind_arguments_accepts args H) as (p & Hp & Hb).
  eexists. unfold call_tool. rewrite Hb. split; [reflexivity |].
  unfold acceptable in H. rewrite Hp in H.
  repeat (apply andb_true_iff in H; destruct H as [H ?]).
  unfold within_annotations. cbn [prompt image_size num_images aspect_ratio person_generation].
  rewrite H, !effective_ok by (assumption || reflexivity). reflexivity.
Qed.

(** The request of a call with the four optional arguments set to null. *)
Example nulls_reach_the_provider :
  filter is_request
    (trace_of (call_tool (answering (inr two_entries)) initial_globals (all_null "sunset"))) =
    [Request {| model := "imagen-4.0-generate-001";
                call_prompt := "sunset";
                config := {| number_of_images := None;
                             cfg_image_size := None;
                             cfg_aspect_ratio := None;
                             cfg_person_generation := None;
                             output_mime_type := "image/png" |} |}].
Proof. reflexivity. Qed.

(** X11. Every request that a tool call sends to the provider lies within
    the signature's annotations: the prompt has at most 1920 characters,
    number_of_images is [None] or between 1 and 4, the size, the ratio and
    the policy are [None] or one of the listed strings; it names the
    global model and asks for image/png. *)
Theorem tool_requests_within_annotations P G args call :
  In (Request call) (trace_of (call_tool P G args)) ->
  call.(model) = G.(MODEL) /\
  max_length 1920 call.(call_prompt) = true /\
  optional_int_between 1 4 call.(config).(number_of_images) = true /\
  optional_literal ["1K"; "2K"] call.(config).(cfg_image_size) = true /\
  optional_literal ["1:1"; "3:4"; "4:3"; "9:16"; "16:9"]
    call.(config).(cfg_aspect_ratio) = true /\
  optional_literal ["dont_allow"; "allow_adult"; "allow_all"]
    call.(config).(cfg_person_generation) = true /\
  call.(config).(output_mime_type) = "image/png".
Proof.
  intros H. destruct (acceptable args) eqn:Hacc.
  - destruct (accepted_call P G args Hacc) as (a & Hrun & Hwithin).
    rewrite Hrun in H. apply request_in_trace in H. subst call.
    unfold within_annotations in Hwithin.
    repeat (apply andb_true_iff in Hwithin; destruct Hwithin as [Hwithin ?]).
    cbn. auto 10.
  - destruct (bind_arguments_refuses args Hacc) as (field & Hb).
    unfold call_tool in H. rewrite Hb in H. destruct H.
Qed.

Lemma tool_requests_within_annotations_witness :
  "imagen-4.0-generate-001" = initial_globals.(MODEL) /\
  max_length 1920 "sunset" = true /\
  optional_int_between 1 4 (Some 2%Z) = true /\
  optional_literal ["1K"; "2K"] (Some "2K") = true /\
  optional_literal ["1:1"; "3:4"; "4:3"; "9:16"; "16:9"] (Some "9:16") = true /\
  optional_literal ["dont_allow"; "allow_adult"; "allow_all"] None = true /\
  "image/png" = "image/png".
Proof.
  apply (tool_requests_within_annotations (answering (inr two_entries)) initial_globals
           portrait_pair
           {| model := "imagen-4.0-generate-001";
              call_prompt := "sunset";
              config := {| number_of_images := Some 2%Z;
                           cfg_image_size := Some "2K";
                           cfg_aspect_ratio := Some "9:16";
                           cfg_person_generation := None;
                           output_mime_type := "image/png" |} |}).
  cbn. auto 10.
Defined.

(** * A further property of the entry point *)

(** X12. Host and port matter to the HTTP transport only: when the
    transport resolves to anything but streamable-http, the entry point
    takes the same steps and leaves the same globals whatever [--host],
    [HOST], [--port] and [PORT] say. *)
Theorem bind_address_unused_without_http cl host port :
  resolve cl.(opt_transport) "streamable-http" <> "streamable-http" ->
  cli (rebound cl host port) = cli cl.
Proof.
  intros H. apply String.eqb_neq in H.
  unfold cli, main, rebound. cbn [opt_transport opt_port opt_host opt_log_level
                                   opt_model opt_api_key].
  rewrite H. reflexivity.
Qed.

Lemma bind_address_unused_without_http_witness :
  cli (rebound stdio_with_env {| flag := Some "0.0.0.0"; envvar := None |}
         {| flag := Some 80%Z; envvar := None |}) =
  cli stdio_with_env.
Proof.
  apply (bind_address_unused_without_http stdio_with_env). discriminate.
Defined.
